(** * AirtableCMS: the Airtable integration of the Jovo CMS layer

    A shallow embedding of
    [jovo-integrations/jovo-cms-airtable/src/AirtableCMS.ts]:
    the plugin's [install] (per-sheet strategy registration and credential
    checks), [loadTableData] (page-by-page accumulation of a remote table into
    an array of arrays) and [shiftLastItemToFirstIndex].

    A string stands for the bytes of its UTF-8 encoding.  The built-in
    [String.prototype.toLowerCase] is not defined here: it is a parameter,
    known by three facts that hold of it (see [StringPrototype]).  Numbers in
    cells are kept as integers: the code never computes with a cell. *)

From Stdlib Require Import String Ascii ZArith Bool Lia List Permutation.
Import ListNotations.
Open Scope string_scope.
Open Scope list_scope.

Set Implicit Arguments.

(* ------------------------------------------------------------------------- *)
(** ** JavaScript values, exceptions and arrays *)

#[warnings="-register-all"]
Inductive JsValue : Type :=
| JsUndefined
| JsNull
| JsBool (b : bool)
| JsNumber (n : Z)
| JsString (s : string)
| JsArray (items : list JsValue)
| JsObject (props : list (string * JsValue)).

(** The second argument of [new JovoError(...)]: the member
    [ErrorCode.ERR_PLUGIN] of jovo-core's enum, or a plain string. *)
Inductive ErrorCode : Type :=
| ERR_PLUGIN
| CodeOf (name : string).

(** Modelled from the spec: the class JovoError is declared in jovo-core.  The
    record keeps the arguments of its constructor by position: message, code,
    module (the tag that identifies the integration), details, hint. *)
Record JovoError : Type := mkJovoError {
  message : string;
  code : ErrorCode;
  module : string;
  details : option string;
  hint : option string
}.

(** What a [throw] carries.  [TypeError] is what the engine raises on
    [Object.keys(undefined)], on calling [undefined] and on [new] of something
    that is not a constructor; its message is engine specific and left out. *)
Inductive Exception : Type :=
| TypeError
| Jovo (e : JovoError).

(** The result of running a piece of code that may throw. *)
Inductive Result (A : Type) : Type :=
| Ok (a : A)
| Throw (e : Exception).
Arguments Ok {A} a.
Arguments Throw {A} e.

Definition bindR {A B} (r : Result A) (k : A -> Result B) : Result B :=
  match r with
  | Ok a => k a
  | Throw e => Throw e
  end.

Notation "x <- r ;; k" := (bindR r (fun x => k))
  (at level 61, r at next level, right associativity).

(** [Array.prototype.forEach] with a callback that works on a piece of state
    and may throw: the first exception ends the loop. *)
Fixpoint forEach {A S} (f : S -> A -> Result S) (l : list A) (s : S) : Result S :=
  match l with
  | [] => Ok s
  | a :: l' => s' <- f s a ;; forEach f l' s'
  end.

Module JsArrayOps.

(** [arr.pop()]: the removed last element ([undefined] on the empty array) and
    the array that remains. *)
Definition pop (arr : list JsValue) : JsValue * list JsValue :=
  (last arr JsUndefined, removelast arr).

(** [arr.unshift(x)] *)
Definition unshift (x : JsValue) (arr : list JsValue) : list JsValue :=
  x :: arr.

(** [arr.push(x)] *)
Definition push {A} (arr : list A) (x : A) : list A := arr ++ [x].

End JsArrayOps.

(** [shiftLastItemToFirstIndex], lines 136-140. *)
Definition shiftLastItemToFirstIndex (arr : list JsValue) : list JsValue :=
  let (lastItem, arr) := JsArrayOps.pop arr in
  JsArrayOps.unshift lastItem arr.

(* ------------------------------------------------------------------------- *)
(** ** Raw records, pages and [loadTableData] *)

(** A field mapping: the own enumerable properties of [record.fields], in the
    order [Object.keys] and [Object.values] enumerate them. *)
Definition Fields : Type := list (string * JsValue).

(** A record as the remote client delivers it.  Only its [fields] property is
    read; [None] is a record without one. *)
Record AirtableRecord : Type := mkRecord {
  fields : option Fields
}.

Definition Page : Type := list AirtableRecord.

(** [arr] of [loadTableData]: an array of rows, each an array of cells. *)
Definition Table : Type := list (list JsValue).

(** [_get(x, 'fields')] where [x] may be [undefined] (as [records[0]] is on a
    page without records): lodash answers [undefined] instead of throwing. *)
Definition _get_fields (x : option AirtableRecord) : option Fields :=
  match x with
  | Some r => fields r
  | None => None
  end.

(** [Object.keys(o)] and [Object.values(o)]: a [TypeError] on [undefined]. *)
Definition Object_keys (o : option Fields) : Result (list JsValue) :=
  match o with
  | Some f => Ok (map (fun kv => JsString (fst kv)) f)
  | None => Throw TypeError
  end.

Definition Object_values (o : option Fields) : Result (list JsValue) :=
  match o with
  | Some f => Ok (map snd f)
  | None => Throw TypeError
  end.

(** The error object the remote client hands to the completion callback. *)
Record JsError : Type := mkJsError {
  err_name : string;
  err_message : string
}.

(** How the promise of [loadTableData] ends.  [Escaped e]: a callback threw
    [e] into the remote client, and the promise is never settled. *)
Inductive Outcome : Type :=
| Resolved (arr : Table)
| Rejected (e : Exception)
| Escaped (e : Exception).

(** The body of [records.forEach], lines 111-116. *)
Definition pushRecord (arr : Table) (record : AirtableRecord) : Result Table :=
  values <- Object_values (_get_fields (Some record)) ;;
  let values := shiftLastItemToFirstIndex values in
  Ok (JsArrayOps.push arr values).

(** The page callback, lines 97-122; it ends by calling [fetchNextPage], which
    is the driver below going on to the next page. *)
Definition page (arr : Table) (records : Page) : Result Table :=
  let record := _get_fields (nth_error records 0) in
  keys <- Object_keys record ;;
  let keys := shiftLastItemToFirstIndex keys in
  let arr := JsArrayOps.push arr keys in
  forEach pushRecord records arr.

(** The completion callback, lines 123-132. *)
Definition done (arr : Table) (err : option JsError) : Outcome :=
  match err with
  | Some err =>
      Rejected (Jovo (mkJovoError (err_message err) (CodeOf (err_name err))
                                  "jovo-cms-airtable" None None))
  | None => Resolved arr
  end.

(** What the remote source does in answer to one [select(...).eachPage(...)]:
    the pages it delivers, in order, and what it reports on completion
    ([None]: no error). *)
Record Delivery : Type := mkDelivery {
  pages : list Page;
  completion : option JsError
}.

(** [eachPage(page, done)] of the remote client, driven by a delivery: every
    page goes to the page callback, whose call of [fetchNextPage] brings the
    next one; after the last page the completion callback runs. *)
Fixpoint eachPage (ps : list Page) (err : option JsError) (arr : Table) : Outcome :=
  match ps with
  | [] => done arr err
  | records :: rest =>
      match page arr records with
      | Ok arr' => eachPage rest err arr'
      | Throw e => Escaped e
      end
  end.

(** The remote base behind [this.base]: what it answers to the n-th fetch made
    against it, for a table and select options, and how many fetches it has
    served. *)
Record Base : Type := mkBase {
  respond : nat -> string -> JsValue -> Delivery;
  calls : nat
}.

(** [loadTableData(selectOptions, table)], lines 93-134.  [base] is
    [this.base], unset until [install] has completed; calling it unset throws
    inside the promise executor, which rejects the promise. *)
Definition loadTableData (base : option Base) (selectOptions : JsValue)
    (table : string) : Outcome * option Base :=
  match base with
  | None => (Rejected TypeError, None)
  | Some b =>
      let arr : Table := [] in
      let d := respond b (calls b) table selectOptions in
      (eachPage (pages d) (completion d) arr,
       Some (mkBase (respond b) (S (calls b))))
  end.

(** A base that answers every fetch with the same delivery. *)
Definition constBase (d : Delivery) : Base := mkBase (fun _ _ _ => d) 0.

(** One fetch against a source that delivers [ps] and then reports [err]. *)
Definition fetch (ps : list Page) (err : option JsError) : Outcome :=
  fst (loadTableData (Some (constBase (mkDelivery ps err))) JsUndefined "table").

(* ------------------------------------------------------------------------- *)
(** ** Configuration and the per-sheet strategies *)

(** One configured sheet (interface [AirtableTable]). *)
Record AirtableTable : Type := mkSheet {
  name : string;
  type : option string;
  selectOptions : JsValue
}.

Record Config : Type := mkConfig {
  enabled : bool;
  apiKey : option string;
  baseId : option string;
  sheets : option (list AirtableTable)
}.

(** Truthiness of an optional string: [undefined] and the empty string are
    falsy. *)
Definition truthy (s : option string) : bool :=
  match s with
  | Some s => negb (s =? "")
  | None => false
  end.

Definition lowerChar (c : ascii) : ascii :=
  let n := nat_of_ascii c in
  if (65 <=? n)%nat && (n <=? 90)%nat then ascii_of_nat (n + 32) else c.

(** Lowercasing as it is on a string of ASCII characters: the letters A-Z
    become a-z. *)
Fixpoint asciiLowerCase (s : string) : string :=
  match s with
  | EmptyString => EmptyString
  | String c s' => String (lowerChar c) (asciiLowerCase s')
  end.

Definition isCapital (c : ascii) : bool :=
  let n := nat_of_ascii c in (65 <=? n)%nat && (n <=? 90)%nat.

Definition isAsciiChar (c : ascii) : bool := (nat_of_ascii c <? 128)%nat.

Fixpoint allChars (p : ascii -> bool) (s : string) : bool :=
  match s with
  | EmptyString => true
  | String c s' => p c && allChars p s'
  end.

(** Every character is an ASCII character. *)
Definition isAscii (s : string) : bool := allChars isAsciiChar s.

(** No character is one of the letters A-Z. *)
Definition noCapital (s : string) : bool :=
  allChars (fun c => negb (isCapital c)) s.

(** [s.toLowerCase()] is a built-in of the engine, which also lowers letters
    outside ASCII (some of them to ASCII letters: the Kelvin sign U+212A
    becomes k).  It is taken as a parameter, with what the proofs use of it:
    on a string of ASCII characters it lowers A-Z and nothing else; its result
    holds none of the letters A-Z; and it gives the empty string for the empty
    string only. *)
Class StringPrototype : Type := {
  toLowerCase : string -> string;
  toLowerCase_ascii :
    forall s, isAscii s = true -> toLowerCase s = asciiLowerCase s;
  toLowerCase_noCapital : forall s, noCapital (toLowerCase s) = true;
  toLowerCase_nonempty : forall s, toLowerCase s = "" -> s = ""
}.

(** An implementation with these three properties, to run examples with: it
    lowers A-Z and leaves every other byte alone, which is what the engine
    does on strings of ASCII characters. *)
#[global]
Instance asciiStrings : StringPrototype.
Proof.
  refine {| toLowerCase := asciiLowerCase |}.
  - reflexivity.
  - induction s as [| c s IH]; [reflexivity |].
    change (negb (isCapital (lowerChar c)) && noCapital (asciiLowerCase s) = true).
    rewrite IH, andb_true_r.
    destruct c as [[] [] [] [] [] [] [] []]; reflexivity.
  - intros [| c s]; [reflexivity | discriminate].
Defined.

(** The strategy classes the plugin imports. *)
Inductive SheetClass : Type :=
| DefaultTable
| ResponsesTable
| KeyValueTable
| ObjectArrayTable.

(** What reading a property of [defaultSheetMap] can give: one of the four
    classes, or something the object literal inherits from
    [Object.prototype]. *)
Inductive Property : Type :=
| Class (c : SheetClass)
| ObjectConstructor              (* [Object] itself, under 'constructor' *)
| ObjectPrototype                (* [Object.prototype], under '__proto__' *)
| ObjectMethod.                  (* a built-in method, e.g. 'toString' *)

Fixpoint lookup {A} (key : string) (l : list (string * A)) : option A :=
  match l with
  | [] => None
  | (k, a) :: l' => if k =? key then Some a else lookup key l'
  end.

(** The own properties of [defaultSheetMap], lines 42-47. *)
Definition ownSheetMap : list (string * SheetClass) :=
  [ ("default", DefaultTable);
    ("responses", ResponsesTable);
    ("keyvalue", KeyValueTable);
    ("objectarray", ObjectArrayTable) ].

(** The properties every object literal inherits. *)
Definition inheritedProperties : list (string * Property) :=
  [ ("constructor", ObjectConstructor);
    ("__proto__", ObjectPrototype);
    ("toString", ObjectMethod);
    ("toLocaleString", ObjectMethod);
    ("valueOf", ObjectMethod);
    ("hasOwnProperty", ObjectMethod);
    ("isPrototypeOf", ObjectMethod);
    ("propertyIsEnumerable", ObjectMethod);
    ("__defineGetter__", ObjectMethod);
    ("__defineSetter__", ObjectMethod);
    ("__lookupGetter__", ObjectMethod);
    ("__lookupSetter__", ObjectMethod) ].

(** [defaultSheetMap[key]]; [None] is [undefined].  Every property found is a
    function or an object, hence truthy. *)
Definition defaultSheetMap (key : string) : option Property :=
  match lookup key ownSheetMap with
  | Some c => Some (Class c)
  | None => lookup key inheritedProperties
  end.

(** What [this.use] is handed: an instance of a strategy class built on the
    sheet, or the sheet object itself (which is what [new Object(sheet)]
    returns). *)
Inductive Plugin : Type :=
| Instance (c : SheetClass) (sheet : AirtableTable)
| Plain (sheet : AirtableTable).

(** [new f(sheet)] for [f] read from the lookup table. *)
Definition construct (f : option Property) (sheet : AirtableTable) : Result Plugin :=
  match f with
  | Some (Class c) => Ok (Instance c sheet)
  | Some ObjectConstructor => Ok (Plain sheet)
  | Some ObjectPrototype | Some ObjectMethod | None => Throw TypeError
  end.

(** Lines 51-57: the name under which a sheet's strategy is looked up, if
    any. *)
Definition sheetType {SP : StringPrototype} (sheet : AirtableTable) : option string :=
  let type_ : option string := None in
  let type_ := if negb (truthy (type sheet)) then Some "Default" else type_ in
  match type sheet with
  | Some t =>
      if truthy (Some t) &&
         match defaultSheetMap (toLowerCase t) with Some _ => true | None => false end
      then Some (toLowerCase t)
      else type_
  | None => type_
  end.

(* ------------------------------------------------------------------------- *)
(** ** The plugin object and [install] *)

(** Modelled from the spec: the host's plugin lifecycle lives in jovo-core.
    The calls [install] makes on its collaborators are recorded in the order
    made; [this.use(p)] registers [p]. *)
Inductive Effect : Type :=
| SuperInstall                              (* super.install(app) *)
| MiddlewareUse (phase : string)            (* app.middleware(phase).use(...) *)
| Use (p : Plugin)                          (* this.use(p) *)
| NewAirtable (key : string) (id : string). (* new Airtable({apiKey}).base(id) *)

Record AirtableCMS : Type := mkPlugin {
  config : Config;
  base : option Base;
  trace : list Effect
}.

(** Code that works on the plugin object and may throw; the object is kept as
    it was when the exception left. *)
Definition M (A : Type) : Type := AirtableCMS -> Result A * AirtableCMS.

Definition retM {A} (a : A) : M A := fun this => (Ok a, this).

Definition bindM {A B} (m : M A) (k : A -> M B) : M B :=
  fun this =>
    match m this with
    | (Ok a, this') => k a this'
    | (Throw e, this') => (Throw e, this')
    end.

Definition throw {A} (e : Exception) : M A := fun this => (Throw e, this).

Definition getThis : M AirtableCMS := fun this => (Ok this, this).

Definition emit (e : Effect) : M unit :=
  fun this => (Ok tt, mkPlugin (config this) (base this) (trace this ++ [e])).

Definition setBase (b : Base) : M unit :=
  fun this => (Ok tt, mkPlugin (config this) (Some b) (trace this)).

Notation "x <~ m ;; k" := (bindM m (fun x => k))
  (at level 61, m at next level, right associativity).
Notation "m >> k" := (bindM m (fun _ => k))
  (at level 61, right associativity).

Fixpoint forEachM {A} (f : A -> M unit) (l : list A) : M unit :=
  match l with
  | [] => retM tt
  | a :: l' => f a >> forEachM f l'
  end.

(** The callback of [this.config.sheets.forEach], lines 50-61. *)
Definition registerSheet {SP : StringPrototype} (sheet : AirtableTable) : M unit :=
  let type_ := sheetType sheet in
  match type_ with
  | Some t =>
      if truthy type_ then
        match construct (defaultSheetMap (toLowerCase t)) sheet with
        | Ok p => emit (Use p)
        | Throw e => throw e
        end
      else retM tt
  | None => retM tt
  end.

(** The two errors of lines 63-80. *)
Definition missingApiKey : JovoError :=
  mkJovoError "Can't find api key" ERR_PLUGIN "jovo-cms-airtable"
    (Some "To use the Airtable integration you have to provide a valid api key")
    (Some "You can find your api key on https://airtable.com/api").

Definition missingBaseId : JovoError :=
  mkJovoError "Can't find baseId" ERR_PLUGIN "jovo-cms-airtable"
    (Some "To use the Airtable integrations you have to provide a baseId")
    (Some "You can find your baseId on https://airtable.com/api").

Section Install.

Context {SP : StringPrototype}.

(** The remote client: the base that [new Airtable({apiKey}).base(baseId)]
    gives access to. *)
Variable Airtable : string -> string -> Base.

(** [install(app)], lines 38-83.  Past the two checks both credentials are
    non-empty strings, so the last branch of the final match is never
    taken. *)
Definition install : M unit :=
  emit SuperInstall >>
  emit (MiddlewareUse "setup") >>
  this <~ getThis ;;
  match sheets (config this) with
  | Some l => forEachM registerSheet l
  | None => retM tt
  end >>
  (if negb (truthy (apiKey (config this))) then throw (Jovo missingApiKey)
   else retM tt) >>
  (if negb (truthy (baseId (config this))) then throw (Jovo missingBaseId)
   else retM tt) >>
  match apiKey (config this), baseId (config this) with
  | Some key, Some id => emit (NewAirtable key id) >> setBase (Airtable key id)
  | _, _ => throw TypeError
  end.

End Install.

(** A plugin object before [install], for a given configuration. *)
Definition newPlugin (c : Config) : AirtableCMS := mkPlugin c None [].

(* ------------------------------------------------------------------------- *)
(** ** Notions the statements below are written with *)

(** The rows one page contributes when each of its records has a field
    mapping: a row of keys taken from the page's first record, then one row of
    values per record. *)
Definition keysRow (f : Fields) : list JsValue :=
  shiftLastItemToFirstIndex (map (fun kv => JsString (fst kv)) f).

Definition valuesRow (f : Fields) : list JsValue :=
  shiftLastItemToFirstIndex (map snd f).

Definition hasFields (r : AirtableRecord) : Prop := fields r <> None.

Definition fieldsOf (r : AirtableRecord) : Fields :=
  match fields r with
  | Some f => f
  | None => []
  end.

Definition pageRows (records : Page) : Table :=
  match records with
  | [] => []
  | first :: _ =>
      keysRow (fieldsOf first) :: map (fun r => valuesRow (fieldsOf r)) records
  end.

Definition wellFormed (records : Page) : Prop :=
  records <> [] /\ Forall hasFields records.

(** The table the specification describes for a list of pages: one row of
    keys, from the first record of the first page, then every record's row of
    values, page after page. *)
Definition normalizedTable (ps : list Page) : Table :=
  match ps with
  | (first :: _) :: _ =>
      keysRow (fieldsOf first) ::
      flat_map (map (fun r => valuesRow (fieldsOf r))) ps
  | _ => []
  end.





(** The error [loadTableData] rejects with for a source error. *)
Definition retrievalError (err : JsError) : JovoError :=
  mkJovoError (err_message err) (CodeOf (err_name err)) "jovo-cms-airtable"
              None None.

(** The name each strategy class has in the lookup table. *)
Definition variantName (c : SheetClass) : string :=
  match c with
  | DefaultTable => "default"
  | ResponsesTable => "responses"
  | KeyValueTable => "keyvalue"
  | ObjectArrayTable => "objectarray"
  end.

(** What [registerSheet] hands to [this.use], if anything, or the exception it
    throws. *)
Definition resolveSheet {SP : StringPrototype} (sheet : AirtableTable) :
    Result (option Plugin) :=
  match sheetType sheet with
  | Some t =>
      if truthy (Some t) then
        p <- construct (defaultSheetMap (toLowerCase t)) sheet ;; Ok (Some p)
      else Ok None
  | None => Ok None
  end.

(** A sheet whose type, lowercased, names nothing the lookup table
    inherits. *)
Definition plainType {SP : StringPrototype} (sheet : AirtableTable) : Prop :=
  forall t, type sheet = Some t -> lookup (toLowerCase t) inheritedProperties = None.

Definition plainSheets {SP : StringPrototype} (c : Config) : Prop :=
  forall l, sheets c = Some l -> Forall plainType l.

(** What the registration loop may add to the trace. *)
Definition isUse (e : Effect) : Prop := exists p, e = Use p.

(** The plugin object when the registration loop starts. *)
Definition beforeSheets (this : AirtableCMS) : AirtableCMS :=
  mkPlugin (config this) (base this)
           ((trace this ++ [SuperInstall]) ++ [MiddlewareUse "setup"]).

(** The part of [install] up to the end of the registration loop,
    lines 39-62. *)
Definition registerSheets {SP : StringPrototype} (this : AirtableCMS) :
    Result unit * AirtableCMS :=
  match sheets (config this) with
  | Some l => forEachM registerSheet l (beforeSheets this)
  | None => (Ok tt, beforeSheets this)
  end.

(** The error [install] throws for a configuration, going by the credentials
    alone: the API key is looked at first. *)
Definition credentialError (c : Config) : JovoError :=
  if truthy (apiKey c) then missingBaseId else missingApiKey.

(** The strategy class the registration callback picks for a sheet, going by
    the own entries of the lookup table alone: [DefaultTable] for a falsy type,
    the class named by the lowercased type otherwise, if any. *)
Definition strategyOf {SP : StringPrototype} (sheet : AirtableTable) :
    option SheetClass :=
  match type sheet with
  | Some t =>
      if truthy (Some t) then lookup (toLowerCase t) ownSheetMap
      else Some DefaultTable
  | None => Some DefaultTable
  end.

(** The calls of [this.use] that go with [strategyOf]: one or none. *)
Definition usesOf {SP : StringPrototype} (sheet : AirtableTable) : list Effect :=
  match strategyOf sheet with
  | Some c => [Use (Instance c sheet)]
  | None => []
  end.

(** Sheets whose type, lowercased, is one of the two inherited names a
    lowercased string can be. *)
Definition protoType {SP : StringPrototype} (sheet : AirtableTable) : Prop :=
  exists t, type sheet = Some t /\ toLowerCase t = "__proto__".

Definition constructorType {SP : StringPrototype} (sheet : AirtableTable) : Prop :=
  exists t, type sheet = Some t /\ toLowerCase t = "constructor".

(** The number of records a delivery holds, all pages together. *)
Definition recordCount (ps : list Page) : nat := length (concat ps).

(** The (key, value) pairs of a field mapping as cells. *)
Definition cellPairs (f : Fields) : list (JsValue * JsValue) :=
  map (fun kv => (JsString (fst kv), snd kv)) f.

(* ------------------------------------------------------------------------- *)
(** ** Sample data *)

Module Samples.

Definition alice : AirtableRecord :=
  mkRecord (Some [("Name", JsString "Alice"); ("ID", JsString "p1")]).

Definition bob : AirtableRecord :=
  mkRecord (Some [("Name", JsString "Bob"); ("ID", JsString "p2")]).

(** A record whose Name cell is empty: the source leaves the field out. *)
Definition nameless : AirtableRecord :=
  mkRecord (Some [("ID", JsString "p3")]).

Definition blank : AirtableRecord := mkRecord (Some []).

Definition sourceError : JsError := mkJsError "Error" "connect ETIMEDOUT".

Definition sheet (t : option string) : AirtableTable :=
  mkSheet "answers" t JsUndefined.

Definition emptyBase : Base := constBase (mkDelivery [] None).

Definition client : string -> string -> Base := fun _ _ => emptyBase.

End Samples.

(* ------------------------------------------------------------------------- *)
(** ** [shiftLastItemToFirstIndex] *)

Lemma shift_snoc (init : list JsValue) (z : JsValue) :
  shiftLastItemToFirstIndex (init ++ [z]) = z :: init.
Proof.
  unfold shiftLastItemToFirstIndex, JsArrayOps.pop, JsArrayOps.unshift.
  now rewrite last_last, removelast_last.
Qed.

Lemma shift_nil : shiftLastItemToFirstIndex [] = [JsUndefined].
Proof. reflexivity. Qed.

Lemma snoc_cases {A} (l : list A) :
  l = [] \/ exists init z, l = init ++ [z].
Proof.
  induction l as [| z init _] using rev_ind; [now left | right; eauto].
Qed.

Lemma shift_length (arr : list JsValue) :
  length (shiftLastItemToFirstIndex arr) = Nat.max 1 (length arr).
Proof.
  destruct (snoc_cases arr) as [-> | [init [z ->]]]; [reflexivity |].
  rewrite shift_snoc, length_app. cbn [length]. lia.
Qed.

Lemma firstn_init {A} (init : list A) (z : A) :
  firstn (length (init ++ [z]) - 1) (init ++ [z]) = init.
Proof.
  rewrite length_app. simpl.
  replace (length init + 1 - 1) with (length init + 0) by lia.
  now rewrite firstn_app_2, app_nil_r.
Qed.

(** C8.  On a non-empty array the transform returns the last element followed
    by the elements before it, in order (so index 0 holds the input's last
    element and indices 1.. hold the input's leading elements); and on an
    array of length at least two whose first and last elements differ from
    each other and from every element in between, applying it twice gives a
    result different from applying it once. *)
Theorem shiftLastItemToFirstIndex_moves_last_and_is_not_idempotent :
  (forall arr : list JsValue, arr <> [] ->
     shiftLastItemToFirstIndex arr =
       last arr JsUndefined :: firstn (length arr - 1) arr) /\
  (forall (a z : JsValue) (mid : list JsValue),
     a <> z -> ~ In a mid -> ~ In z mid ->
     shiftLastItemToFirstIndex (shiftLastItemToFirstIndex (a :: mid ++ [z])) <>
       shiftLastItemToFirstIndex (a :: mid ++ [z])).
Proof.
  split.
  - intros arr Hne.
    destruct (snoc_cases arr) as [-> | [init [z ->]]]; [contradiction |].
    now rewrite shift_snoc, last_last, firstn_init.
  - intros a z mid Haz _ Hz.
    rewrite (app_comm_cons mid [z] a), shift_snoc.
    destruct (snoc_cases mid) as [-> | [init [m ->]]].
    + change (shiftLastItemToFirstIndex ([z] ++ [a]) <> [z; a]).
      rewrite shift_snoc. intros E. injection E as E _. now apply Haz.
    + change (shiftLastItemToFirstIndex ((z :: a :: init) ++ [m]) <>
                z :: a :: init ++ [m]).
      rewrite shift_snoc. intros E. injection E as E _.
      apply Hz. subst m. apply in_or_app. right. now left.
Qed.

Lemma shiftLastItemToFirstIndex_witness :
  shiftLastItemToFirstIndex [JsString "Name"; JsString "ID"] =
    [JsString "ID"; JsString "Name"] /\
  shiftLastItemToFirstIndex
    (shiftLastItemToFirstIndex [JsString "Name"; JsNumber 7; JsString "ID"]) <>
    shiftLastItemToFirstIndex [JsString "Name"; JsNumber 7; JsString "ID"].
Proof.
  split.
  - apply (proj1 shiftLastItemToFirstIndex_moves_last_and_is_not_idempotent
             [JsString "Name"; JsString "ID"]).
    discriminate.
  - apply (proj2 shiftLastItemToFirstIndex_moves_last_and_is_not_idempotent
             (JsString "Name") (JsString "ID") [JsNumber 7]).
    + discriminate.
    + intros [H | []]. discriminate H.
    + intros [H | []]. discriminate H.
Defined.

(* ------------------------------------------------------------------------- *)
(** ** The page callback and the fetch *)

Lemma pushRecord_hasFields (arr : Table) (r : AirtableRecord) :
  hasFields r -> pushRecord arr r = Ok (arr ++ [valuesRow (fieldsOf r)]).
Proof.
  unfold hasFields, pushRecord, fieldsOf, valuesRow. simpl.
  destruct (fields r); [reflexivity | congruence].
Qed.

Lemma forEach_pushRecord (records : Page) :
  Forall hasFields records ->
  forall arr, forEach pushRecord records arr =
              Ok (arr ++ map (fun r => valuesRow (fieldsOf r)) records).
Proof.
  induction 1 as [| r records Hr _ IH]; intros arr; simpl.
  - now rewrite app_nil_r.
  - rewrite (pushRecord_hasFields _ Hr). simpl.
    now rewrite IH, <- app_assoc.
Qed.

Lemma page_nonempty (arr : Table) (records : Page) :
  records <> [] -> Forall hasFields records ->
  page arr records = Ok (arr ++ pageRows records).
Proof.
  intros Hne Hall. destruct records as [| first rest]; [contradiction |].
  pose proof (Forall_inv Hall) as Hfirst.
  unfold page, pageRows, keysRow, JsArrayOps.push. simpl nth_error. simpl _get_fields.
  unfold fieldsOf at 1. unfold hasFields in Hfirst.
  destruct (fields first) as [f |]; [| congruence].
  cbn [Object_keys bindR].
  rewrite (forEach_pushRecord Hall). now rewrite <- app_assoc.
Qed.

Lemma page_empty (arr : Table) : page arr [] = Throw TypeError.
Proof. reflexivity. Qed.

(** The driver runs the page callback over the pages, then the completion
    callback, unless a page callback threw. *)
Lemma eachPage_forEach (ps : list Page) (err : option JsError) (arr : Table) :
  eachPage ps err arr =
    match forEach page ps arr with
    | Ok arr' => done arr' err
    | Throw e => Escaped e
    end.
Proof.
  revert arr. induction ps as [| records rest IH]; intros arr; simpl.
  - reflexivity.
  - destruct (page arr records) as [arr' | e]; simpl; [apply IH | reflexivity].
Qed.

Lemma forEach_page (ps : list Page) :
  Forall wellFormed ps ->
  forall arr, forEach page ps arr = Ok (arr ++ flat_map pageRows ps).
Proof.
  induction 1 as [| records rest [Hne Hall] _ IH]; intros arr; simpl.
  - now rewrite app_nil_r.
  - rewrite (page_nonempty _ Hne Hall). simpl.
    now rewrite IH, <- app_assoc.
Qed.

(** A fetch whose pages are all non-empty, with a field mapping in every
    record, and which completes without error, resolves to the pages' rows in
    delivery order, each page led by a row of keys. *)
Lemma loadTableData_resolves (b : Base) (opts : JsValue) (table : string) :
  let d := respond b (calls b) table opts in
  Forall wellFormed (pages d) -> completion d = None ->
  fst (loadTableData (Some b) opts table) = Resolved (flat_map pageRows (pages d)).
Proof.
  intros d Hwf Hdone. unfold loadTableData. fold d. simpl.
  rewrite eachPage_forEach, (forEach_page Hwf), Hdone. reflexivity.
Qed.

(** C9.  On the empty array the transform returns the one-element array
    holding [undefined]; so a record whose field mapping is empty contributes
    the data row [[undefined]], whatever has been accumulated before, and a
    table made of one such record resolves to two such rows (keys, values). *)
Theorem shiftLastItemToFirstIndex_empty_gives_undefined :
  shiftLastItemToFirstIndex [] = [JsUndefined] /\
  (forall arr : Table,
     pushRecord arr (mkRecord (Some [])) = Ok (arr ++ [[JsUndefined]])) /\
  fetch [[Samples.blank]] None = Resolved [[JsUndefined]; [JsUndefined]].
Proof. repeat split. Qed.

(** Scenario A of the specification: one page, two records, ID delivered
    last. *)
Example fetch_scenario_A :
  fetch [[Samples.alice; Samples.bob]] None =
    Resolved [ [JsString "ID"; JsString "Name"];
               [JsString "p1"; JsString "Alice"];
               [JsString "p2"; JsString "Bob"] ].
Proof. reflexivity. Qed.

(** With a single page the fetch gives the table the specification
    describes. *)
Lemma fetch_single_page (records : Page) (b : Base) (opts : JsValue) (table : string) :
  respond b (calls b) table opts = mkDelivery [records] None ->
  wellFormed records ->
  fst (loadTableData (Some b) opts table) = Resolved (normalizedTable [records]).
Proof.
  intros Hd Hwf.
  rewrite loadTableData_resolves; rewrite Hd; simpl; auto.
  destruct Hwf as [Hne _]. destruct records; [contradiction |].
  simpl. now rewrite !app_nil_r.
Qed.

(** C1.  Two pages of one record each: the fetch resolves to a table in which
    the row of keys appears again in front of the second page's record, which
    is not the table the specification describes (keys once, then the two
    records). *)
Theorem loadTableData_pushes_keys_on_every_page :
  fetch [[Samples.alice]; [Samples.bob]] None =
    Resolved [ [JsString "ID"; JsString "Name"];
               [JsString "p1"; JsString "Alice"];
               [JsString "ID"; JsString "Name"];
               [JsString "p2"; JsString "Bob"] ] /\
  normalizedTable [[Samples.alice]; [Samples.bob]] =
    [ [JsString "ID"; JsString "Name"];
      [JsString "p1"; JsString "Alice"];
      [JsString "p2"; JsString "Bob"] ] /\
  fetch [[Samples.alice]; [Samples.bob]] None <>
    Resolved (normalizedTable [[Samples.alice]; [Samples.bob]]).
Proof. repeat split. discriminate. Qed.











(** C4.  A table with zero records reaches the page callback as one page
    without records.  There [records[0]] is [undefined], [Object.keys] throws a
    [TypeError] out of the callback, and the promise is left unsettled: the
    fetch does not resolve to the empty table, whatever the source would have
    delivered or reported afterwards. *)
Theorem loadTableData_throws_on_empty_page :
  (forall arr : Table, page arr [] = Throw TypeError) /\
  fetch [[]] None = Escaped TypeError /\
  (forall (rest : list Page) (err : option JsError),
     fetch ([] :: rest) err = Escaped TypeError) /\
  fetch [[]] None <> Resolved [].
Proof. repeat split. discriminate. Qed.

(** When the source delivers no page at all the fetch does resolve to the
    empty table. *)
Lemma fetch_no_page : fetch [] None = Resolved [].
Proof. reflexivity. Qed.

(** C5.  When the source reports an error on completion, the completion
    callback rejects with a JovoError that carries the error's message and the
    tag 'jovo-cms-airtable', whatever rows have been accumulated.  For a whole
    fetch: it is never resolved with a table, it is rejected with that error
    as soon as the page callbacks have all returned, and the base has served
    exactly one more fetch afterwards (nothing is tried again). *)
Theorem loadTableData_rejects_on_source_error :
  (forall (arr : Table) (err : JsError),
     done arr (Some err) = Rejected (Jovo (retrievalError err)) /\
     message (retrievalError err) = err_message err /\
     module (retrievalError err) = "jovo-cms-airtable") /\
  (forall (b : Base) (opts : JsValue) (table : string) (err : JsError),
     let d := respond b (calls b) table opts in
     completion d = Some err ->
     (forall t, fst (loadTableData (Some b) opts table) <> Resolved t) /\
     (forall arr, forEach page (pages d) [] = Ok arr ->
        fst (loadTableData (Some b) opts table) =
          Rejected (Jovo (retrievalError err))) /\
     snd (loadTableData (Some b) opts table) =
       Some (mkBase (respond b) (S (calls b)))).
Proof.
  split.
  - intros arr err. repeat split.
  - intros b opts table err d Herr. unfold loadTableData. fold d. simpl.
    rewrite eachPage_forEach, Herr. repeat split.
    + intros t. destruct (forEach page (pages d) []); discriminate.
    + intros arr ->. reflexivity.
Qed.

Lemma loadTableData_rejects_witness :
  (forall t, fetch [[Samples.alice]] (Some Samples.sourceError) <> Resolved t) /\
  fetch [[Samples.alice]] (Some Samples.sourceError) =
    Rejected (Jovo (mkJovoError "connect ETIMEDOUT" (CodeOf "Error")
                                "jovo-cms-airtable" None None)).
Proof.
  destruct (proj2 loadTableData_rejects_on_source_error
              (constBase (mkDelivery [[Samples.alice]] (Some Samples.sourceError)))
              JsUndefined "table" Samples.sourceError eq_refl) as [H1 [H2 _]].
  split; [exact H1 |].
  exact (H2 _ eq_refl).
Defined.

(* ------------------------------------------------------------------------- *)
(** ** Strategy resolution *)

Section StrategyResolution.

Context {SP : StringPrototype}.

Lemma registerSheet_resolveSheet (sheet : AirtableTable) (this : AirtableCMS) :
  registerSheet sheet this =
    match resolveSheet sheet with
    | Ok (Some p) => emit (Use p) this
    | Ok None => (Ok tt, this)
    | Throw e => (Throw e, this)
    end.
Proof.
  unfold registerSheet, resolveSheet.
  destruct (sheetType sheet) as [t |]; [| reflexivity].
  destruct (truthy (Some t)); [| reflexivity].
  destruct (construct (defaultSheetMap (toLowerCase t)) sheet); reflexivity.
Qed.

Lemma toLowerCase_empty : toLowerCase "" = "".
Proof. now rewrite toLowerCase_ascii. Qed.

Lemma toLowerCase_truthy (s : string) :
  truthy (Some (toLowerCase s)) = truthy (Some s).
Proof.
  destruct s as [| c s]; [now rewrite toLowerCase_empty |].
  destruct (toLowerCase (String c s)) eqn:E; [| reflexivity].
  apply toLowerCase_nonempty in E. discriminate E.
Qed.

Lemma toLowerCase_inv_nonempty (t k : string) :
  toLowerCase t = k -> k <> "" -> t <> "".
Proof. intros <- Hk ->. apply Hk, toLowerCase_empty. Qed.

Lemma truthy_Some (s : string) : truthy (Some s) = true <-> s <> "".
Proof.
  unfold truthy. destruct (String.eqb_spec s ""); simpl; split; intros; congruence.
Qed.

Lemma variantName_lookup (c : SheetClass) :
  defaultSheetMap (variantName c) = Some (Class c).
Proof. destruct c; reflexivity. Qed.

Lemma toLowerCase_variantName (c : SheetClass) :
  toLowerCase (variantName c) = variantName c.
Proof. destruct c; now rewrite toLowerCase_ascii. Qed.

(** Read with a key that holds no capital letter, the lookup table gives one
    of the four classes, [Object] (under "constructor"), [Object.prototype]
    (under "__proto__") or nothing: the methods it inherits have mixed-case
    names. *)
Lemma defaultSheetMap_lowercase (k : string) :
  noCapital k = true ->
  defaultSheetMap k =
    match lookup k ownSheetMap with
    | Some c => Some (Class c)
    | None =>
        if "constructor" =? k then Some ObjectConstructor
        else if "__proto__" =? k then Some ObjectPrototype
        else None
    end.
Proof.
  intros Hk. unfold defaultSheetMap.
  destruct (lookup k ownSheetMap); [reflexivity |].
  unfold inheritedProperties. cbn [lookup].
  destruct ("constructor" =? k); [reflexivity |].
  destruct ("__proto__" =? k); [reflexivity |].
  repeat match goal with
         | |- context [if ?m =? k then _ else _] =>
             destruct (String.eqb_spec m k) as [E | _];
             [rewrite <- E in Hk; discriminate Hk |]
         end.
  reflexivity.
Qed.

(** A lowercased string under which the lookup table has something is left
    as it is by a second lowercasing. *)
Lemma toLowerCase_found (t : string) (f : Property) :
  defaultSheetMap (toLowerCase t) = Some f ->
  toLowerCase (toLowerCase t) = toLowerCase t.
Proof.
  rewrite (defaultSheetMap_lowercase _ (toLowerCase_noCapital t)).
  generalize (toLowerCase t). intros k.
  unfold ownSheetMap. cbn [lookup].
  repeat match goal with
         | |- context [if ?m =? k then _ else _] =>
             destruct (String.eqb_spec m k) as [<- | _];
             [intros _; now rewrite toLowerCase_ascii |]
         end.
  discriminate.
Qed.

Lemma sheetType_absent (sheet : AirtableTable) :
  truthy (type sheet) = false -> sheetType sheet = Some "Default".
Proof.
  intros H. unfold sheetType. rewrite H. cbn [negb].
  destruct (type sheet) as [t |]; [| reflexivity].
  now rewrite H.
Qed.

Lemma resolveSheet_absent (sheet : AirtableTable) :
  truthy (type sheet) = false ->
  resolveSheet sheet = Ok (Some (Instance DefaultTable sheet)).
Proof.
  intros H. unfold resolveSheet. rewrite (sheetType_absent _ H).
  now rewrite toLowerCase_ascii.
Qed.

Lemma resolveSheet_truthy (sheet : AirtableTable) (t : string) :
  type sheet = Some t -> t <> "" ->
  resolveSheet sheet =
    match defaultSheetMap (toLowerCase t) with
    | Some f => p <- construct (Some f) sheet ;; Ok (Some p)
    | None => Ok None
    end.
Proof.
  intros Ht Hne.
  pose proof (proj2 (truthy_Some t) Hne) as Htruthy.
  unfold resolveSheet, sheetType. rewrite Ht, Htruthy. cbn [negb andb].
  destruct (defaultSheetMap (toLowerCase t)) as [f |] eqn:Hf; [| reflexivity].
  now rewrite toLowerCase_truthy, Htruthy, (toLowerCase_found _ Hf), Hf.
Qed.

Lemma resolveSheet_known (sheet : AirtableTable) (t : string) (c : SheetClass) :
  type sheet = Some t -> toLowerCase t = variantName c ->
  resolveSheet sheet = Ok (Some (Instance c sheet)).
Proof.
  intros Ht Hc.
  rewrite (@resolveSheet_truthy sheet t Ht).
  - now rewrite Hc, variantName_lookup.
  - apply (toLowerCase_inv_nonempty Hc). now destruct c.
Qed.

Lemma resolveSheet_unknown (sheet : AirtableTable) (t : string) :
  type sheet = Some t -> t <> "" -> defaultSheetMap (toLowerCase t) = None ->
  resolveSheet sheet = Ok None.
Proof.
  intros Ht Hne Hnone.
  now rewrite (@resolveSheet_truthy sheet t Ht Hne), Hnone.
Qed.

Lemma resolveSheet_throws (sheet : AirtableTable) (e : Exception) :
  resolveSheet sheet = Throw e -> e = TypeError.
Proof.
  unfold resolveSheet.
  destruct (sheetType sheet) as [t |]; [| discriminate].
  destruct (truthy (Some t)); [| discriminate].
  destruct (defaultSheetMap (toLowerCase t)) as [[] |]; simpl; congruence.
Qed.

Lemma resolveSheet_proto (sheet : AirtableTable) :
  protoType sheet -> resolveSheet sheet = Throw TypeError.
Proof.
  intros [t [Ht Hk]].
  rewrite (@resolveSheet_truthy sheet t Ht);
    [| apply (toLowerCase_inv_nonempty Hk); discriminate].
  now rewrite Hk.
Qed.

Lemma resolveSheet_constructor (sheet : AirtableTable) :
  constructorType sheet -> resolveSheet sheet = Ok (Some (Plain sheet)).
Proof.
  intros [t [Ht Hk]].
  rewrite (@resolveSheet_truthy sheet t Ht);
    [| apply (toLowerCase_inv_nonempty Hk); discriminate].
  now rewrite Hk.
Qed.

Lemma resolveSheet_throw_inv (sheet : AirtableTable) (e : Exception) :
  resolveSheet sheet = Throw e -> e = TypeError /\ protoType sheet.
Proof.
  intros Hthrow. split; [exact (resolveSheet_throws _ Hthrow) |].
  destruct (truthy (type sheet)) eqn:Htruthy.
  - destruct (type sheet) as [t |] eqn:Ht; [| discriminate].
    assert (Hne : t <> "") by (intros ->; discriminate).
    rewrite (@resolveSheet_truthy sheet t Ht Hne) in Hthrow.
    rewrite (defaultSheetMap_lowercase _ (toLowerCase_noCapital t)) in Hthrow.
    exists t. split; [exact Ht |].
    destruct (lookup (toLowerCase t) ownSheetMap); [discriminate |].
    destruct ("constructor" =? toLowerCase t); [discriminate |].
    destruct (String.eqb_spec "__proto__" (toLowerCase t)); [congruence | discriminate].
  - rewrite (resolveSheet_absent _ Htruthy) in Hthrow. discriminate.
Qed.

Lemma resolveSheet_strategyOf (sheet : AirtableTable) :
  plainType sheet ->
  resolveSheet sheet =
    Ok (option_map (fun c => Instance c sheet) (strategyOf sheet)).
Proof.
  intros Hplain. unfold strategyOf.
  destruct (truthy (type sheet)) eqn:Htruthy.
  - destruct (type sheet) as [t |] eqn:Ht; [| discriminate].
    assert (Hne : t <> "") by (intros ->; discriminate).
    rewrite Htruthy, (@resolveSheet_truthy sheet t Ht Hne).
    unfold defaultSheetMap. rewrite (Hplain t Ht).
    now destruct (lookup (toLowerCase t) ownSheetMap).
  - rewrite (resolveSheet_absent _ Htruthy).
    destruct (type sheet) as [t |]; [rewrite Htruthy |]; reflexivity.
Qed.

Lemma resolveSheet_plain (sheet : AirtableTable) :
  plainType sheet ->
  resolveSheet sheet = Ok None \/
  exists c, resolveSheet sheet = Ok (Some (Instance c sheet)).
Proof.
  intros Hplain. rewrite (resolveSheet_strategyOf Hplain).
  destruct (strategyOf sheet) as [c |]; simpl; eauto.
Qed.

(** C7.  Resolution does not depend on the case of the declared type: a sheet
    whose type, lowercased, is the name of a strategy class ("default",
    "responses", "keyvalue", "objectarray") has an instance of that very class
    registered, and a sheet without a type has a [DefaultTable] instance
    registered. *)
Theorem sheet_type_resolution_is_case_insensitive
    (sheet : AirtableTable) (this : AirtableCMS) :
  (forall (t : string) (c : SheetClass),
     type sheet = Some t -> toLowerCase t = variantName c ->
     registerSheet sheet this = emit (Use (Instance c sheet)) this) /\
  (type sheet = None ->
   registerSheet sheet this = emit (Use (Instance DefaultTable sheet)) this).
Proof.
  split.
  - intros t c Ht Hc.
    now rewrite registerSheet_resolveSheet, (@resolveSheet_known sheet t c Ht Hc).
  - intros Hnone.
    rewrite registerSheet_resolveSheet, resolveSheet_absent; [reflexivity |].
    now rewrite Hnone.
Qed.

(** C3, as the code has it.  A sheet whose type is absent (or the empty
    string) has a [DefaultTable] instance registered.  A sheet whose type is
    present and, lowercased, names no property of the lookup table raises no
    error and is skipped: the plugin object is left as it was. *)
Theorem unrecognized_sheet_type_is_skipped
    (sheet : AirtableTable) (this : AirtableCMS) :
  (truthy (type sheet) = false ->
   registerSheet sheet this = emit (Use (Instance DefaultTable sheet)) this) /\
  (forall t : string,
     type sheet = Some t -> t <> "" -> defaultSheetMap (toLowerCase t) = None ->
     registerSheet sheet this = (Ok tt, this)).
Proof.
  split.
  - intros Habsent.
    now rewrite registerSheet_resolveSheet, resolveSheet_absent.
  - intros t Ht Hne Hnone.
    now rewrite registerSheet_resolveSheet, (@resolveSheet_unknown sheet t Ht Hne Hnone).
Qed.

End StrategyResolution.

Lemma sheet_type_resolution_witness :
  let this := newPlugin (mkConfig true None None None) in
  trace (snd (registerSheet (Samples.sheet (Some "KEYVALUE")) this)) =
    [Use (Instance KeyValueTable (Samples.sheet (Some "KEYVALUE")))] /\
  trace (snd (registerSheet (Samples.sheet (Some "keyvalue")) this)) =
    [Use (Instance KeyValueTable (Samples.sheet (Some "keyvalue")))] /\
  trace (snd (registerSheet (Samples.sheet None) this)) =
    [Use (Instance DefaultTable (Samples.sheet None))].
Proof.
  intros this. split; [| split].
  - rewrite (proj1 (sheet_type_resolution_is_case_insensitive
                      (Samples.sheet (Some "KEYVALUE")) this)
               "KEYVALUE" KeyValueTable); reflexivity.
  - rewrite (proj1 (sheet_type_resolution_is_case_insensitive
                      (Samples.sheet (Some "keyvalue")) this)
               "keyvalue" KeyValueTable); reflexivity.
  - rewrite (proj2 (sheet_type_resolution_is_case_insensitive
                      (Samples.sheet None) this) eq_refl).
    reflexivity.
Defined.

Lemma unrecognized_sheet_type_witness :
  let this := newPlugin (mkConfig true None None None) in
  trace (snd (registerSheet (Samples.sheet (Some "")) this)) =
    [Use (Instance DefaultTable (Samples.sheet (Some "")))] /\
  registerSheet (Samples.sheet (Some "Bogus")) this = (Ok tt, this).
Proof.
  intros this. split.
  - rewrite (proj1 (unrecognized_sheet_type_is_skipped
                      (Samples.sheet (Some "")) this) eq_refl).
    reflexivity.
  - apply (proj2 (unrecognized_sheet_type_is_skipped
                    (Samples.sheet (Some "Bogus")) this) "Bogus").
    + reflexivity.
    + discriminate.
    + reflexivity.
Defined.

(** C3, as stated, fails: for the type "bogus" nothing is registered, so no
    [DefaultTable] instance is, whatever the engine's lowercasing does
    outside ASCII. *)
Lemma bogus_sheet_type_registers_nothing :
  (forall (SP : StringPrototype) (this : AirtableCMS),
     registerSheet (Samples.sheet (Some "bogus")) this = (Ok tt, this)) /\
  ~ (forall (SP : StringPrototype) (sheet : AirtableTable) (this : AirtableCMS),
       (type sheet = None \/
        exists t, type sheet = Some t /\ lookup (toLowerCase t) ownSheetMap = None) ->
       In (Use (Instance DefaultTable sheet))
          (trace (snd (registerSheet sheet this)))).
Proof.
  split.
  - intros SP this. rewrite registerSheet_resolveSheet.
    rewrite (@resolveSheet_unknown SP (Samples.sheet (Some "bogus")) "bogus" eq_refl).
    + reflexivity.
    + discriminate.
    + now rewrite toLowerCase_ascii.
  - intros H.
    apply (H asciiStrings (Samples.sheet (Some "bogus"))
             (newPlugin (mkConfig true None None None))).
    right. exists "bogus". split; reflexivity.
Qed.

(* ------------------------------------------------------------------------- *)
(** ** [install] *)

Section InstallFacts.

Context {SP : StringPrototype}.

Variable Airtable : string -> string -> Base.

Lemma registerSheet_frame (sheet : AirtableTable) (this : AirtableCMS) :
  config (snd (registerSheet sheet this)) = config this /\
  base (snd (registerSheet sheet this)) = base this /\
  exists es, trace (snd (registerSheet sheet this)) = trace this ++ es /\
             Forall isUse es /\
             (forall p, resolveSheet sheet = Ok (Some p) -> In (Use p) es).
Proof.
  rewrite registerSheet_resolveSheet.
  destruct (resolveSheet sheet) as [[p |] | e]; simpl; repeat split.
  - exists [Use p]. repeat split.
    + constructor; [now exists p | constructor].
    + intros q [= <-]. now left.
  - exists []. rewrite app_nil_r. repeat split; [constructor | discriminate].
  - exists []. rewrite app_nil_r. repeat split; [constructor | discriminate].
Qed.

Lemma forEachM_registerSheet (l : list AirtableTable) (this : AirtableCMS) :
  config (snd (forEachM registerSheet l this)) = config this /\
  base (snd (forEachM registerSheet l this)) = base this /\
  (forall e, fst (forEachM registerSheet l this) = Throw e -> e = TypeError) /\
  (Forall plainType l -> fst (forEachM registerSheet l this) = Ok tt) /\
  exists es, trace (snd (forEachM registerSheet l this)) = trace this ++ es /\
             Forall isUse es /\
             (fst (forEachM registerSheet l this) = Ok tt ->
              forall sheet p, In sheet l -> resolveSheet sheet = Ok (Some p) ->
                              In (Use p) es).
Proof.
  revert this. induction l as [| sheet l IH]; intros this.
  - simpl. repeat split; try discriminate.
    exists []. rewrite app_nil_r. repeat split; [constructor |].
    intros _ sheet p [].
  - cbn [forEachM]. unfold bindM.
    destruct (registerSheet_frame sheet this) as [Hc [Hb [es1 [Ht [Hu Hin]]]]].
    pose proof (registerSheet_resolveSheet sheet this) as Hreg.
    destruct (registerSheet sheet this) as [[[] | e] this1] eqn:Hrun;
      simpl in Hc, Hb, Ht.
    + destruct (IH this1) as [Hc' [Hb' [Hthrow [Hplain [es2 [Ht' [Hu' Hin']]]]]]].
      repeat split.
      * congruence.
      * congruence.
      * exact Hthrow.
      * intros Hall. apply Hplain. exact (Forall_inv_tail Hall).
      * exists (es1 ++ es2). rewrite Ht', Ht, app_assoc. repeat split.
        -- apply Forall_app. now split.
        -- intros Hok s p [<- | Hs] Hres; apply in_or_app.
           ++ left. now apply Hin.
           ++ right. now apply (Hin' Hok s).
    + simpl. repeat split; try assumption.
      * intros e' [= <-].
        destruct (resolveSheet sheet) as [[p |] | e'] eqn:Hres;
          [discriminate Hreg | discriminate Hreg |].
        injection Hreg as -> _. exact (resolveSheet_throws _ Hres).
      * intros Hall. exfalso.
        destruct (resolveSheet_plain (Forall_inv Hall)) as [Hres | [c Hres]];
          rewrite Hres in Hreg; discriminate Hreg.
      * exists es1. repeat split; [assumption | assumption | discriminate].
Qed.

Lemma registerSheet_plain (sheet : AirtableTable) (this : AirtableCMS) :
  plainType sheet ->
  registerSheet sheet this =
    (Ok tt, mkPlugin (config this) (base this) (trace this ++ usesOf sheet)).
Proof.
  intros Hplain.
  rewrite registerSheet_resolveSheet, (resolveSheet_strategyOf Hplain).
  unfold usesOf. destruct (strategyOf sheet); simpl; [reflexivity |].
  destruct this. simpl. now rewrite app_nil_r.
Qed.

Lemma forEachM_plain (l : list AirtableTable) :
  Forall plainType l ->
  forall this,
    forEachM registerSheet l this =
      (Ok tt, mkPlugin (config this) (base this) (trace this ++ flat_map usesOf l)).
Proof.
  induction 1 as [| sheet l Hsheet _ IH]; intros this.
  - destruct this. simpl. unfold retM. now rewrite app_nil_r.
  - cbn [forEachM]. unfold bindM. rewrite (registerSheet_plain this Hsheet).
    rewrite IH. simpl. now rewrite <- app_assoc.
Qed.

Lemma forEachM_proto (l1 l2 : list AirtableTable) (s : AirtableTable) :
  Forall plainType l1 -> protoType s ->
  forall this,
    forEachM registerSheet (l1 ++ s :: l2) this =
      (Throw TypeError,
       mkPlugin (config this) (base this) (trace this ++ flat_map usesOf l1)).
Proof.
  intros Hplain Hproto. induction Hplain as [| sheet l Hsheet _ IH]; intros this.
  - cbn [app forEachM]. unfold bindM.
    rewrite registerSheet_resolveSheet, (resolveSheet_proto Hproto).
    destruct this. simpl. now rewrite app_nil_r.
  - cbn [app forEachM]. unfold bindM. rewrite (registerSheet_plain this Hsheet).
    rewrite IH. simpl. now rewrite <- app_assoc.
Qed.

Lemma forEachM_ok_no_proto (l : list AirtableTable) :
  forall this,
    fst (forEachM registerSheet l this) = Ok tt ->
    Forall (fun s => ~ protoType s) l.
Proof.
  induction l as [| sheet l IH]; intros this Hok; [constructor |].
  cbn [forEachM] in Hok. unfold bindM in Hok.
  rewrite registerSheet_resolveSheet in Hok.
  constructor.
  - intros Hproto. rewrite (resolveSheet_proto Hproto) in Hok. discriminate Hok.
  - destruct (resolveSheet sheet) as [[p |] | e]; simpl in Hok.
    + exact (IH _ Hok).
    + exact (IH _ Hok).
    + discriminate Hok.
Qed.

Lemma install_after_registerSheets (this : AirtableCMS) :
  install Airtable this =
    match registerSheets this with
    | (Throw e, this') => (Throw e, this')
    | (Ok _, this') =>
        if negb (truthy (apiKey (config this))) then
          (Throw (Jovo missingApiKey), this')
        else if negb (truthy (baseId (config this))) then
          (Throw (Jovo missingBaseId), this')
        else
          match apiKey (config this), baseId (config this) with
          | Some key, Some id =>
              (Ok tt, mkPlugin (config this') (Some (Airtable key id))
                               (trace this' ++ [NewAirtable key id]))
          | _, _ => (Throw TypeError, this')
          end
    end.
Proof.
  unfold install, registerSheets, bindM, emit, getThis. simpl.
  fold (beforeSheets this).
  destruct (sheets (config this)) as [l |].
  - destruct (forEachM registerSheet l (beforeSheets this)) as [[[] | e] this'];
      [| reflexivity].
    destruct (truthy (apiKey (config this))); [| reflexivity]. simpl.
    destruct (truthy (baseId (config this))); [| reflexivity]. simpl.
    destruct (apiKey (config this)), (baseId (config this)); reflexivity.
  - unfold retM.
    destruct (truthy (apiKey (config this))); [| reflexivity]. simpl.
    destruct (truthy (baseId (config this))); [| reflexivity]. simpl.
    destruct (apiKey (config this)), (baseId (config this)); reflexivity.
Qed.

Lemma registerSheets_facts (this : AirtableCMS) :
  config (snd (registerSheets this)) = config this /\
  base (snd (registerSheets this)) = base this /\
  (forall e, fst (registerSheets this) = Throw e -> e = TypeError) /\
  ((forall l, sheets (config this) = Some l -> Forall plainType l) ->
   fst (registerSheets this) = Ok tt) /\
  exists es,
    trace (snd (registerSheets this)) =
      trace this ++ [SuperInstall; MiddlewareUse "setup"] ++ es /\
    Forall isUse es /\
    (fst (registerSheets this) = Ok tt ->
     forall l sheet p, sheets (config this) = Some l -> In sheet l ->
                       resolveSheet sheet = Ok (Some p) -> In (Use p) es).
Proof.
  unfold registerSheets.
  destruct (sheets (config this)) as [l |] eqn:Hl.
  - destruct (forEachM_registerSheet l (beforeSheets this))
      as [Hc [Hb [Hthrow [Hplain [es [Ht [Hu Hin]]]]]]].
    repeat split; try assumption.
    + intros Hall. apply Hplain. now apply Hall.
    + exists es. rewrite Ht. simpl. rewrite <- !app_assoc. repeat split.
      * assumption.
      * intros Hok l' sheet p [= <-]. now apply Hin.
  - simpl. repeat split; try discriminate.
    exists []. rewrite <- !app_assoc. repeat split; [constructor | discriminate].
Qed.

(** When the registration of the sheets goes through and a credential is
    missing, [install] throws the JovoError for it (the API key's when both
    are missing), with the tag 'jovo-cms-airtable'; [this.base] is left as it
    was and no remote client has been constructed. *)
Lemma install_throws_on_missing_credential (this : AirtableCMS) :
  plainSheets (config this) ->
  truthy (apiKey (config this)) = false \/ truthy (baseId (config this)) = false ->
  fst (install Airtable this) = Throw (Jovo (credentialError (config this))) /\
  message (credentialError (config this)) =
    (if truthy (apiKey (config this)) then "Can't find baseId"
     else "Can't find api key") /\
  module (credentialError (config this)) = "jovo-cms-airtable" /\
  base (snd (install Airtable this)) = base this /\
  (forall key id, In (NewAirtable key id) (trace (snd (install Airtable this))) ->
                  In (NewAirtable key id) (trace this)).
Proof.
  intros Hplain Hmissing.
  destruct (registerSheets_facts this)
    as [_ [Hb [_ [Hok [es [Ht [Hu _]]]]]]].
  specialize (Hok Hplain).
  rewrite install_after_registerSheets.
  destruct (registerSheets this) as [[[] | e] this']; [| discriminate Hok].
  simpl in Hb, Ht.
  assert (Hnew : forall key id, In (NewAirtable key id) (trace this') ->
                                In (NewAirtable key id) (trace this)).
  { intros key id. rewrite Ht. intros Hin.
    apply in_app_or in Hin. destruct Hin as [Hin | Hin]; [exact Hin |].
    destruct Hin as [H | [H | Hin]]; try discriminate H.
    rewrite Forall_forall in Hu. destruct (Hu _ Hin) as [p Hp]. discriminate Hp. }
  unfold credentialError.
  destruct (truthy (apiKey (config this))) eqn:Hkey; simpl.
  - destruct Hmissing as [H | H]; [discriminate H |]. rewrite H. simpl.
    repeat split; assumption.
  - repeat split; assumption.
Qed.

(** C10.  When [install] throws a JovoError, it is the one for a missing
    credential, [this.base] is left as it was, and the registration of the
    sheets is already in the trace: a [DefaultTable] instance for every sheet
    without a type, and an instance of the named class for every sheet whose
    type, lowercased, is the name of a strategy class. *)
Theorem install_registers_sheets_before_credential_error
    (this : AirtableCMS) (e : JovoError) :
  fst (install Airtable this) = Throw (Jovo e) ->
  (e = missingApiKey \/ e = missingBaseId) /\
  base (snd (install Airtable this)) = base this /\
  (forall l sheet, sheets (config this) = Some l -> In sheet l ->
     (truthy (type sheet) = false ->
      In (Use (Instance DefaultTable sheet)) (trace (snd (install Airtable this)))) /\
     (forall t c, type sheet = Some t -> toLowerCase t = variantName c ->
      In (Use (Instance c sheet)) (trace (snd (install Airtable this))))).
Proof.
  rewrite install_after_registerSheets.
  destruct (registerSheets_facts this)
    as [_ [Hb [Hthrow [_ [es [Ht [_ Hin]]]]]]].
  destruct (registerSheets this) as [[[] | e'] this'].
  - simpl in Hb, Ht, Hin. specialize (Hin eq_refl).
    assert (Hreg : forall l sheet p, sheets (config this) = Some l -> In sheet l ->
                     resolveSheet sheet = Ok (Some p) -> In (Use p) (trace this')).
    { intros l sheet p Hl Hs Hres. rewrite Ht. apply in_or_app. right.
      right. right. exact (Hin l sheet p Hl Hs Hres). }
    assert (Hsheets : forall l sheet, sheets (config this) = Some l -> In sheet l ->
              (truthy (type sheet) = false ->
               In (Use (Instance DefaultTable sheet)) (trace this')) /\
              (forall t c, type sheet = Some t -> toLowerCase t = variantName c ->
               In (Use (Instance c sheet)) (trace this'))).
    { intros l sheet Hl Hs. split.
      - intros Habsent. apply (Hreg l sheet _ Hl Hs).
        now apply resolveSheet_absent.
      - intros t c Htype Hc. apply (Hreg l sheet _ Hl Hs).
        exact (@resolveSheet_known SP sheet t c Htype Hc). }
    destruct (truthy (apiKey (config this))); simpl.
    + destruct (truthy (baseId (config this))); simpl.
      * destruct (apiKey (config this)), (baseId (config this)); discriminate.
      * intros [= <-]. repeat split; auto; apply (Hsheets l sheet); assumption.
    + intros [= <-]. repeat split; auto; apply (Hsheets l sheet); assumption.
  - simpl. intros [= He]. specialize (Hthrow e' eq_refl). congruence.
Qed.

End InstallFacts.

Lemma install_throws_witness :
  let this := newPlugin (mkConfig true None (Some "appXYZ")
                           (Some [Samples.sheet (Some "KeyValue")])) in
  fst (install Samples.client this) = Throw (Jovo missingApiKey) /\
  base (snd (install Samples.client this)) = None.
Proof.
  intros this.
  destruct (@install_throws_on_missing_credential
              asciiStrings Samples.client this) as [H1 [_ [_ [H2 _]]]].
  - intros l [= <-]. constructor; [| constructor].
    intros t [= <-]. reflexivity.
  - left. reflexivity.
  - split; [exact H1 | exact H2].
Defined.

(** C6.  A configuration without API key and with one sheet of type
    "__proto__": the lookup finds [Object.prototype] under that name, [new]
    throws a TypeError in the registration loop, and the check of the
    credentials is never reached.  So [install] throws a TypeError, not the
    configuration error for the missing API key, whatever the engine's
    lowercasing does outside ASCII. *)
Theorem install_proto_sheet_throws_TypeError :
  let this := newPlugin (mkConfig true None (Some "appXYZ")
                           (Some [Samples.sheet (Some "__proto__")])) in
  (forall (SP : StringPrototype) (Airtable : string -> string -> Base),
     fst (install Airtable this) = Throw TypeError) /\
  ~ (forall (SP : StringPrototype) (Airtable : string -> string -> Base)
            (this : AirtableCMS),
       truthy (apiKey (config this)) = false \/
       truthy (baseId (config this)) = false ->
       exists e, fst (install Airtable this) = Throw (Jovo e)).
Proof.
  intros this.
  assert (Hthrow : forall (SP : StringPrototype) (Airtable : string -> string -> Base),
            fst (install Airtable this) = Throw TypeError).
  { intros SP Airtable. rewrite install_after_registerSheets. unfold registerSheets.
    cbn [this newPlugin config sheets].
    rewrite (@forEachM_proto SP [] [] (Samples.sheet (Some "__proto__"))
               (Forall_nil _)); [reflexivity |].
    exists "__proto__". split; [reflexivity | now rewrite toLowerCase_ascii]. }
  split; [exact Hthrow |].
  intros H.
  destruct (H asciiStrings Samples.client this (or_introl eq_refl)) as [e He].
  rewrite Hthrow in He. discriminate He.
Qed.

Lemma install_registers_sheets_witness :
  let sheets := [Samples.sheet None; Samples.sheet (Some "Responses")] in
  let this := newPlugin (mkConfig true (Some "key123") None (Some sheets)) in
  fst (install Samples.client this) = Throw (Jovo missingBaseId) /\
  In (Use (Instance DefaultTable (Samples.sheet None)))
     (trace (snd (install Samples.client this))) /\
  In (Use (Instance ResponsesTable (Samples.sheet (Some "Responses"))))
     (trace (snd (install Samples.client this))).
Proof.
  intros sheets this.
  assert (Hthrow : fst (install Samples.client this) =
                   Throw (Jovo missingBaseId)) by (vm_compute; reflexivity).
  destruct (install_registers_sheets_before_credential_error _ _ Hthrow)
    as [_ [_ H]].
  split; [exact Hthrow |]. split.
  - apply (proj1 (H sheets (Samples.sheet None) eq_refl (or_introl eq_refl))).
    reflexivity.
  - apply (proj2 (H sheets (Samples.sheet (Some "Responses")) eq_refl
                    (or_intror (or_introl eq_refl)))
             "Responses" ResponsesTable); reflexivity.
Defined.

(* ------------------------------------------------------------------------- *)
(** ** More on [shiftLastItemToFirstIndex] *)

(** X1.  On a non-empty array the transform only reorders: the result is a
    permutation of the input and has the input's length. *)
Theorem shiftLastItemToFirstIndex_permutes (arr : list JsValue) :
  arr <> [] ->
  Permutation arr (shiftLastItemToFirstIndex arr) /\
  length (shiftLastItemToFirstIndex arr) = length arr.
Proof.
  intros Hne.
  destruct (snoc_cases arr) as [-> | [init [z ->]]]; [contradiction |].
  rewrite shift_snoc. split.
  - apply Permutation_sym, Permutation_cons_append.
  - rewrite length_app. simpl. lia.
Qed.

Lemma shiftLastItemToFirstIndex_permutes_witness :
  Permutation [JsString "Name"; JsString "Age"; JsString "ID"]
              [JsString "ID"; JsString "Name"; JsString "Age"].
Proof.
  apply (proj1 (@shiftLastItemToFirstIndex_permutes
                  [JsString "Name"; JsString "Age"; JsString "ID"]
                  ltac:(discriminate))).
Defined.

Lemma iter_shift_rotates (b a : list JsValue) :
  Nat.iter (length b) shiftLastItemToFirstIndex (a ++ b) = b ++ a.
Proof.
  revert a. induction b as [| z b IH] using rev_ind; intros a.
  - simpl. now rewrite app_nil_r.
  - rewrite length_app, Nat.add_comm. cbn [length Nat.add].
    rewrite Nat.iter_succ_r, app_assoc, shift_snoc.
    rewrite (app_comm_cons a b z), IH. now rewrite <- app_assoc.
Qed.

(** X2.  The transform is a rotation: applied as many times as the array has
    elements, it gives the array back. *)
Theorem shiftLastItemToFirstIndex_full_turn (arr : list JsValue) :
  Nat.iter (length arr) shiftLastItemToFirstIndex arr = arr.
Proof.
  pose proof (iter_shift_rotates arr []) as H. simpl in H.
  now rewrite app_nil_r in H.
Qed.

(* ------------------------------------------------------------------------- *)
(** ** More on the fetch *)

Lemma forEach_pushRecord_inv (records : Page) (arr : Table) :
  match forEach pushRecord records arr with
  | Ok _ => Forall hasFields records
  | Throw e => e = TypeError /\ ~ Forall hasFields records
  end.
Proof.
  revert arr. induction records as [| r records IH]; intros arr; simpl.
  - constructor.
  - unfold pushRecord at 1. simpl _get_fields.
    destruct (fields r) as [f |] eqn:Hf; simpl.
    + specialize (IH (JsArrayOps.push arr (shiftLastItemToFirstIndex (map snd f)))).
      destruct (forEach pushRecord records _).
      * constructor; [unfold hasFields; congruence | exact IH].
      * destruct IH as [-> Hnot]. split; [reflexivity |].
        intros Hall. apply Hnot. exact (Forall_inv_tail Hall).
    + split; [reflexivity |]. intros Hall.
      apply Forall_inv in Hall. now apply Hall.
Qed.

Lemma page_inv (records : Page) (arr : Table) :
  match page arr records with
  | Ok arr' => wellFormed records /\ arr' = arr ++ pageRows records
  | Throw e => e = TypeError /\ ~ wellFormed records
  end.
Proof.
  destruct records as [| first rest].
  - simpl. split; [reflexivity |]. intros [Hne _]. now apply Hne.
  - unfold page. cbn [nth_error _get_fields].
    destruct (fields first) as [f |] eqn:Hf; cbn [Object_keys bindR].
    + pose proof (forEach_pushRecord_inv (first :: rest)
                    (JsArrayOps.push arr
                       (shiftLastItemToFirstIndex
                          (map (fun kv => JsString (fst kv)) f)))) as Hinv.
      destruct (forEach pushRecord (first :: rest) _) as [arr' | e] eqn:Hrun.
      * assert (Hwf : wellFormed (first :: rest)) by (split; [discriminate | exact Hinv]).
        split; [exact Hwf |].
        pose proof (page_nonempty arr (proj1 Hwf) (proj2 Hwf)) as Hpage.
        unfold page in Hpage. cbn [nth_error _get_fields] in Hpage.
        rewrite Hf in Hpage. cbn [Object_keys bindR] in Hpage.
        rewrite Hrun in Hpage. now injection Hpage.
      * destruct Hinv as [-> Hnot]. split; [reflexivity |].
        intros [_ Hall]. now apply Hnot.
    + split; [reflexivity |]. intros [_ Hall].
      apply Forall_inv in Hall. now apply Hall.
Qed.

Lemma forEach_page_inv (ps : list Page) (arr : Table) :
  match forEach page ps arr with
  | Ok arr' => Forall wellFormed ps /\ arr' = arr ++ flat_map pageRows ps
  | Throw e => e = TypeError /\ Exists (fun records => ~ wellFormed records) ps
  end.
Proof.
  revert arr. induction ps as [| records rest IH]; intros arr; simpl.
  - split; [constructor | now rewrite app_nil_r].
  - pose proof (page_inv records arr) as Hpage.
    destruct (page arr records) as [arr1 | e]; simpl.
    + destruct Hpage as [Hwf ->].
      specialize (IH (arr ++ pageRows records)).
      destruct (forEach page rest _) as [arr' | e].
      * destruct IH as [Hall ->]. split; [now constructor |].
        now rewrite <- app_assoc.
      * destruct IH as [-> Hex]. split; [reflexivity | now apply Exists_cons_tl].
    + destruct Hpage as [-> Hnot]. split; [reflexivity | now apply Exists_cons_hd].
Qed.

Lemma eachPage_outcomes (ps : list Page) (completed : option JsError) :
  match eachPage ps completed [] with
  | Resolved t =>
      Forall wellFormed ps /\ completed = None /\ t = flat_map pageRows ps
  | Rejected e =>
      Forall wellFormed ps /\
      exists err, completed = Some err /\ e = Jovo (retrievalError err)
  | Escaped e =>
      e = TypeError /\ Exists (fun records => ~ wellFormed records) ps
  end.
Proof.
  rewrite eachPage_forEach.
  pose proof (forEach_page_inv ps []) as Hinv.
  destruct (forEach page ps []) as [arr | e].
  - destruct Hinv as [Hall ->]. simpl app.
    destruct completed as [err |]; simpl.
    + split; [exact Hall |]. now exists err.
    + repeat split. exact Hall.
  - exact Hinv.
Qed.

(** X3.  How a fetch against a set base can end, read back from its outcome.
    It resolves only when no page is without records, every record has a
    field mapping and the source reports no error, and then to the pages' rows
    (keys row, then value rows, page after page); it rejects only with the
    JovoError made from the source's error, and only when every page went
    through; and when a page is without records or a record without field
    mapping, a TypeError leaves the page callback and the promise is never
    settled, whatever the source reports. *)
Theorem loadTableData_outcomes (b : Base) (opts : JsValue) (table : string) :
  let d := respond b (calls b) table opts in
  match fst (loadTableData (Some b) opts table) with
  | Resolved t =>
      Forall wellFormed (pages d) /\ completion d = None /\
      t = flat_map pageRows (pages d)
  | Rejected e =>
      Forall wellFormed (pages d) /\
      exists err, completion d = Some err /\ e = Jovo (retrievalError err)
  | Escaped e =>
      e = TypeError /\ Exists (fun records => ~ wellFormed records) (pages d)
  end.
Proof.
  intros d. exact (eachPage_outcomes (pages d) (completion d)).
Qed.

Lemma pageRows_length (records : Page) :
  records <> [] -> length (pageRows records) = S (length records).
Proof.
  destruct records; [contradiction |]. intros _. simpl. now rewrite length_map.
Qed.

Lemma pageRows_nonempty_rows (records : Page) :
  Forall (fun row : list JsValue => row <> []) (pageRows records).
Proof.
  assert (Hshift : forall l, shiftLastItemToFirstIndex l <> []).
  { intros l H. pose proof (shift_length l) as Hl. rewrite H in Hl. cbn [length] in Hl. lia. }
  destruct records as [| first rest]; [constructor |].
  unfold pageRows. constructor; [apply Hshift |].
  apply Forall_map, Forall_forall. intros r _. apply Hshift.
Qed.

(** X4.  A table the fetch resolves to has one row for every page delivered
    plus one for every record, and no row without a cell. *)
Theorem loadTableData_row_count (b : Base) (opts : JsValue) (table : string)
    (t : Table) :
  let d := respond b (calls b) table opts in
  fst (loadTableData (Some b) opts table) = Resolved t ->
  length t = length (pages d) + recordCount (pages d) /\
  Forall (fun row : list JsValue => row <> []) t.
Proof.
  intros d Hres.
  pose proof (eachPage_outcomes (pages d) (completion d)) as Hout.
  change (eachPage (pages d) (completion d) []) with
    (fst (loadTableData (Some b) opts table)) in Hout.
  rewrite Hres in Hout.
  destruct Hout as [Hall [_ ->]]. clear Hres. unfold recordCount. split.
  - induction Hall as [| records rest [Hne _] _ IH]; [reflexivity |].
    simpl. rewrite !length_app, (pageRows_length Hne), IH. lia.
  - clear Hall. induction (pages d) as [| records rest IH]; simpl; [constructor |].
    apply Forall_app. split; [apply pageRows_nonempty_rows | exact IH].
Qed.

Lemma loadTableData_row_count_witness :
  exists t,
    fetch [[Samples.alice; Samples.nameless]; [Samples.bob]] None = Resolved t /\
    length t = 2 + 3.
Proof.
  eexists. split; [reflexivity |].
  apply (@loadTableData_row_count
           (constBase (mkDelivery [[Samples.alice; Samples.nameless]; [Samples.bob]] None))
           JsUndefined "table" _ eq_refl).
Defined.

(** X5.  The header row and the first data row are aligned, with the field
    the source delivers last in column 0: when the first record's field
    mapping ends with the pair [kv], pairing row 0 with row 1 cell by cell
    gives [kv] first and then the other pairs of the mapping in their
    order. *)
Theorem header_and_first_row_are_aligned (b : Base) (opts : JsValue)
    (table : string) (init : Fields) (kv : string * JsValue) (rs : Page)
    (ps : list Page) :
  let d := respond b (calls b) table opts in
  pages d = (mkRecord (Some (init ++ [kv])) :: rs) :: ps ->
  Forall wellFormed (pages d) -> completion d = None ->
  exists r0 r1 rest,
    fst (loadTableData (Some b) opts table) = Resolved (r0 :: r1 :: rest) /\
    combine r0 r1 = (JsString (fst kv), snd kv) :: cellPairs init.
Proof.
  intros d Hpages Hwf Hdone.
  pose proof (loadTableData_resolves b opts table Hwf Hdone) as Hres.
  fold d in Hres. rewrite Hpages in Hres. simpl in Hres.
  unfold fieldsOf in Hres. simpl fields in Hres.
  unfold keysRow in Hres. unfold valuesRow in Hres at 1.
  rewrite !map_app in Hres. simpl map in Hres. rewrite !shift_snoc in Hres.
  eexists _, _, _. split; [exact Hres |].
  simpl. f_equal. unfold cellPairs. clear.
  induction init as [| [k v] init IH]; simpl; [reflexivity | now rewrite IH].
Qed.

Lemma header_and_first_row_witness :
  exists r0 r1 rest,
    fetch [[Samples.alice; Samples.bob]] None = Resolved (r0 :: r1 :: rest) /\
    combine r0 r1 =
      [(JsString "ID", JsString "p1"); (JsString "Name", JsString "Alice")].
Proof.
  apply (@header_and_first_row_are_aligned
           (constBase (mkDelivery [[Samples.alice; Samples.bob]] None))
           JsUndefined "table" [("Name", JsString "Alice")]
           ("ID", JsString "p1") [Samples.bob] []).
  - reflexivity.
  - repeat constructor; discriminate.
  - reflexivity.
Defined.

(* ------------------------------------------------------------------------- *)
(** ** More on strategy resolution *)

(** X6.  The [new] expression of the registration callback throws exactly
    for a sheet whose type, lowercased, is "__proto__", and then a TypeError,
    with nothing handed to [this.use]; and for a sheet whose type, lowercased,
    is "constructor" it is the bare sheet object that is handed to [this.use],
    not an instance of a strategy class. *)
Theorem registerSheet_inherited_names {SP : StringPrototype}
    (sheet : AirtableTable) (this : AirtableCMS) :
  (protoType sheet -> registerSheet sheet this = (Throw TypeError, this)) /\
  (forall e, fst (registerSheet sheet this) = Throw e ->
             e = TypeError /\ protoType sheet) /\
  (constructorType sheet -> registerSheet sheet this = emit (Use (Plain sheet)) this).
Proof.
  rewrite registerSheet_resolveSheet. split; [| split].
  - intros Hproto. now rewrite (resolveSheet_proto Hproto).
  - intros e Hthrow.
    destruct (resolveSheet sheet) as [[p |] | e'] eqn:Hres; try discriminate.
    simpl in Hthrow. injection Hthrow as <-. exact (resolveSheet_throw_inv _ Hres).
  - intros Hctor. now rewrite (resolveSheet_constructor Hctor).
Qed.

Lemma registerSheet_inherited_names_witness :
  let this := newPlugin (mkConfig true None None None) in
  registerSheet (Samples.sheet (Some "__PROTO__")) this = (Throw TypeError, this) /\
  trace (snd (registerSheet (Samples.sheet (Some "Constructor")) this)) =
    [Use (Plain (Samples.sheet (Some "Constructor")))].
Proof.
  intros this. split.
  - apply (proj1 (registerSheet_inherited_names
                    (Samples.sheet (Some "__PROTO__")) this)).
    exists "__PROTO__". split; reflexivity.
  - rewrite (proj2 (proj2 (registerSheet_inherited_names
                             (Samples.sheet (Some "Constructor")) this))).
    + reflexivity.
    + exists "Constructor". split; reflexivity.
Defined.

(* ------------------------------------------------------------------------- *)
(** ** More on [install] *)

Section MoreInstallFacts.

Context {SP : StringPrototype}.

Variable Airtable : string -> string -> Base.

(** X7.  With both credentials non-empty and no sheet type that names an
    inherited property, [install] completes: after what the trace held come
    the two host hooks, one registration per sheet in the configured order
    (none for a sheet whose type is unknown), then the construction of the
    remote client from exactly the configured key and base identifier; that
    client's base is in [this.base] and is the base [loadTableData] then
    fetches from. *)
Theorem install_completes (this : AirtableCMS) (key id : string)
    (l : list AirtableTable) (opts : JsValue) (table : string) :
  apiKey (config this) = Some key -> key <> "" ->
  baseId (config this) = Some id -> id <> "" ->
  sheets (config this) = Some l -> Forall plainType l ->
  fst (install Airtable this) = Ok tt /\
  base (snd (install Airtable this)) = Some (Airtable key id) /\
  trace (snd (install Airtable this)) =
    trace this ++ [SuperInstall; MiddlewareUse "setup"] ++
    flat_map usesOf l ++ [NewAirtable key id] /\
  loadTableData (base (snd (install Airtable this))) opts table =
    loadTableData (Some (Airtable key id)) opts table.
Proof.
  intros Hkey Hkne Hid Hine Hl Hplain.
  assert (Hrun : install Airtable this =
    (Ok tt,
     mkPlugin (config this) (Some (Airtable key id))
       (trace this ++ [SuperInstall; MiddlewareUse "setup"] ++
        flat_map usesOf l ++ [NewAirtable key id]))).
  { rewrite install_after_registerSheets. unfold registerSheets.
    rewrite Hl, (forEachM_plain Hplain), Hkey, Hid.
    rewrite (proj2 (truthy_Some key) Hkne), (proj2 (truthy_Some id) Hine).
    simpl. now rewrite <- !app_assoc. }
  rewrite Hrun. repeat split.
Qed.

(** X8.  [install] completes only with both credentials present and
    non-empty and with no sheet whose type, lowercased, is "__proto__"; the
    base it leaves in [this.base] is the one the client gives for these very
    credentials. *)
Theorem install_completes_only_with_credentials (this : AirtableCMS) :
  fst (install Airtable this) = Ok tt ->
  (exists key id,
     apiKey (config this) = Some key /\ key <> "" /\
     baseId (config this) = Some id /\ id <> "" /\
     base (snd (install Airtable this)) = Some (Airtable key id)) /\
  (forall l, sheets (config this) = Some l -> Forall (fun s => ~ protoType s) l).
Proof.
  rewrite install_after_registerSheets.
  assert (Hnoproto : fst (registerSheets this) = Ok tt ->
            forall l, sheets (config this) = Some l ->
                      Forall (fun s => ~ protoType s) l).
  { unfold registerSheets. intros Hok l Hl. rewrite Hl in Hok.
    exact (forEachM_ok_no_proto _ _ Hok). }
  destruct (registerSheets this) as [[[] | e] this']; [| discriminate].
  specialize (Hnoproto eq_refl).
  destruct (truthy (apiKey (config this))) eqn:Hk; [| discriminate]. simpl.
  destruct (truthy (baseId (config this))) eqn:Hi; [| discriminate]. simpl.
  destruct (apiKey (config this)) as [key |]; [| discriminate].
  destruct (baseId (config this)) as [id |]; [| discriminate].
  intros _. split; [| exact Hnoproto].
  exists key, id. repeat split.
  - now apply truthy_Some.
  - now apply truthy_Some.
Qed.

(** X9.  When [install] throws, for whatever reason, [this.base] is left as
    it was; so on a plugin whose [install] failed, [loadTableData] rejects
    with a TypeError (not a JovoError) and reaches no remote base. *)
Theorem loadTableData_after_failed_install (this : AirtableCMS) (e : Exception)
    (opts : JsValue) (table : string) :
  fst (install Airtable this) = Throw e ->
  base (snd (install Airtable this)) = base this /\
  (base this = None ->
   loadTableData (base (snd (install Airtable this))) opts table =
     (Rejected TypeError, None)).
Proof.
  intros Hthrow.
  assert (Hbase : base (snd (install Airtable this)) = base this).
  { revert Hthrow. rewrite install_after_registerSheets.
    destruct (registerSheets_facts this) as [_ [Hb _]].
    destruct (registerSheets this) as [[[] | e'] this']; simpl in Hb; [| now intros _].
    destruct (truthy (apiKey (config this))); simpl; [| now intros _].
    destruct (truthy (baseId (config this))); simpl; [| now intros _].
    destruct (apiKey (config this)), (baseId (config this)); simpl;
      try discriminate; now intros _. }
  split; [exact Hbase |].
  intros Hnone. now rewrite Hbase, Hnone.
Qed.

(** X10.  When no sheet type names an inherited property and a credential is
    missing, the trace [install] leaves is exactly: what it held before, the
    two host hooks, then one registration per sheet in the configured order
    (a [DefaultTable] for a falsy type, the class named by the lowercased
    type, nothing for an unknown type), and nothing else; [this.base] is left
    as it was. *)
Theorem install_registers_in_configured_order (this : AirtableCMS)
    (l : list AirtableTable) :
  sheets (config this) = Some l -> Forall plainType l ->
  truthy (apiKey (config this)) = false \/ truthy (baseId (config this)) = false ->
  trace (snd (install Airtable this)) =
    trace this ++ [SuperInstall; MiddlewareUse "setup"] ++ flat_map usesOf l /\
  base (snd (install Airtable this)) = base this.
Proof.
  intros Hl Hplain Hmissing.
  rewrite install_after_registerSheets. unfold registerSheets.
  rewrite Hl, (forEachM_plain Hplain). simpl. rewrite <- !app_assoc.
  destruct (truthy (apiKey (config this))); simpl; [| now split].
  destruct Hmissing as [H | ->]; [discriminate H | now split].
Qed.

(** X11.  A sheet whose type, lowercased, is "__proto__" makes [install]
    throw a TypeError whatever the credentials are: the sheets configured
    before it (none of them naming an inherited property) have been
    registered, the sheets after it have not, and [this.base] is left as it
    was. *)
Theorem install_stops_at_proto_sheet (this : AirtableCMS)
    (l1 l2 : list AirtableTable) (s : AirtableTable) :
  sheets (config this) = Some (l1 ++ s :: l2) ->
  Forall plainType l1 -> protoType s ->
  fst (install Airtable this) = Throw TypeError /\
  trace (snd (install Airtable this)) =
    trace this ++ [SuperInstall; MiddlewareUse "setup"] ++ flat_map usesOf l1 /\
  base (snd (install Airtable this)) = base this.
Proof.
  intros Hl Hplain Hproto.
  rewrite install_after_registerSheets. unfold registerSheets.
  rewrite Hl, (forEachM_proto l2 Hplain Hproto). simpl.
  now rewrite <- !app_assoc.
Qed.

(** X12.  Whatever the configuration and however it ends, [install] has run
    the host's install and hooked the 'setup' middleware before anything
    else: these two calls follow what the trace held before, and after them
    come only calls of [this.use], with at most the construction of the remote
    client at the very end. *)
Theorem install_hooks_setup_first (this : AirtableCMS) :
  exists uses tail,
    trace (snd (install Airtable this)) =
      trace this ++ [SuperInstall; MiddlewareUse "setup"] ++ uses ++ tail /\
    Forall isUse uses /\
    (tail = [] \/ exists key id, tail = [NewAirtable key id]).
Proof.
  rewrite install_after_registerSheets.
  destruct (registerSheets_facts this) as [_ [_ [_ [_ [es [Ht [Hu _]]]]]]].
  destruct (registerSheets this) as [[[] | e] this']; simpl in Ht.
  - assert (Hstay : exists uses tail,
                trace this' =
                  trace this ++ [SuperInstall; MiddlewareUse "setup"] ++ uses ++ tail /\
                Forall isUse uses /\
                (tail = [] \/ exists key id, tail = [NewAirtable key id])).
    { exists es, []. rewrite app_nil_r. auto. }
    destruct (truthy (apiKey (config this))); simpl; [| exact Hstay].
    destruct (truthy (baseId (config this))); simpl; [| exact Hstay].
    destruct (apiKey (config this)) as [key |]; [| exact Hstay].
    destruct (baseId (config this)) as [id |]; [| exact Hstay].
    simpl.
    exists es, [NewAirtable key id]. rewrite Ht. simpl.
    rewrite <- !app_assoc. simpl. repeat split; eauto.
  - exists es, []. rewrite app_nil_r. auto.
Qed.

End MoreInstallFacts.

Lemma install_completes_witness :
  let l := [Samples.sheet None; Samples.sheet (Some "Bogus");
            Samples.sheet (Some "KeyValue")] in
  let this := newPlugin (mkConfig true (Some "key123") (Some "appXYZ") (Some l)) in
  fst (install Samples.client this) = Ok tt /\
  base (snd (install Samples.client this)) = Some (Samples.client "key123" "appXYZ") /\
  trace (snd (install Samples.client this)) =
    trace this ++ [SuperInstall; MiddlewareUse "setup"] ++
    flat_map usesOf l ++ [NewAirtable "key123" "appXYZ"].
Proof.
  intros l this.
  destruct (@install_completes asciiStrings Samples.client this "key123" "appXYZ" l
              JsUndefined "table" eq_refl ltac:(discriminate)
              eq_refl ltac:(discriminate) eq_refl
              ltac:(repeat constructor; intros t [= <-]; reflexivity))
    as [H1 [H2 [H3 _]]].
  split; [exact H1 | split; [exact H2 | exact H3]].
Defined.

Lemma install_completes_only_witness :
  let this := newPlugin (mkConfig true (Some "key123") (Some "appXYZ") (Some [])) in
  exists key id,
    apiKey (config this) = Some key /\ key <> "" /\
    baseId (config this) = Some id /\ id <> "" /\
    base (snd (install Samples.client this)) = Some (Samples.client key id).
Proof.
  intros this.
  assert (Hok : fst (install Samples.client this) = Ok tt) by (vm_compute; reflexivity).
  exact (proj1 (@install_completes_only_with_credentials asciiStrings
                  Samples.client this Hok)).
Defined.

Lemma loadTableData_after_failed_install_witness :
  let this := newPlugin (mkConfig true None None (Some [Samples.sheet None])) in
  loadTableData (base (snd (install Samples.client this))) JsUndefined "table" =
    (Rejected TypeError, None).
Proof.
  intros this.
  assert (Hthrow : fst (install Samples.client this) = Throw (Jovo missingApiKey))
    by (vm_compute; reflexivity).
  exact (proj2 (@loadTableData_after_failed_install asciiStrings Samples.client
                  this _ JsUndefined "table" Hthrow) eq_refl).
Defined.

Lemma install_registers_in_configured_order_witness :
  let l := [Samples.sheet (Some "ObjectArray"); Samples.sheet (Some "bogus");
            Samples.sheet (Some ""); Samples.sheet (Some "ObjectArray")] in
  let this := newPlugin (mkConfig true (Some "key123") None (Some l)) in
  trace (snd (install Samples.client this)) =
    trace this ++ [SuperInstall; MiddlewareUse "setup"] ++ flat_map usesOf l /\
  base (snd (install Samples.client this)) = base this.
Proof.
  intros l this.
  apply (@install_registers_in_configured_order asciiStrings Samples.client
           this l eq_refl).
  - repeat constructor; intros t [= <-]; reflexivity.
  - right. reflexivity.
Defined.

Lemma install_stops_at_proto_sheet_witness :
  let l1 := [Samples.sheet None] in
  let s := Samples.sheet (Some "__Proto__") in
  let l2 := [Samples.sheet (Some "keyvalue")] in
  let this := newPlugin (mkConfig true (Some "key123") (Some "appXYZ")
                           (Some (l1 ++ s :: l2))) in
  fst (install Samples.client this) = Throw TypeError /\
  trace (snd (install Samples.client this)) =
    trace this ++ [SuperInstall; MiddlewareUse "setup"] ++ flat_map usesOf l1 /\
  base (snd (install Samples.client this)) = base this.
Proof.
  intros l1 s l2 this.
  apply (@install_stops_at_proto_sheet asciiStrings Samples.client this l1 l2 s
           eq_refl).
  - repeat constructor. intros t H. discriminate H.
  - exists "__Proto__". split; reflexivity.
Defined.
